(** * ActiveWidgetStore: a shallow embedding of src/stores/ActiveWidgetStore.js

    The store is a singleton [EventEmitter] holding one pointer
    ([_persistentWidgetId]) and three plain JavaScript objects used as maps
    from widget id to capabilities, messaging channel and room id.

    Modelling choices, all read off the source:
    - a plain object used as a map is the list of its own properties in
      creation order; [for (k in o)] visits array-index keys first, in
      ascending numeric order, then the other keys in creation order;
      lookups read own properties only, so widget ids that name a member of
      [Object.prototype] are outside the model;
    - a method is a function from the state to the new state, the list of
      effects it had on its collaborators (event emission, console, channel
      calls, client and dispatcher subscriptions) and a completion, which is
      a return value or a thrown error;
    - a [WidgetMessaging] instance is a collaborator whose source is not part
      of this file: each of its methods is given by the way it completes,
      and thrown values are [Error] objects carrying a message.  Listeners of
      ['update'] and collaborator methods do not call back into the store. *)

From Stdlib Require Import List String Ascii Bool NArith Arith Lia Permutation.
Import ListNotations.
Open Scope string_scope.

Set Implicit Arguments.

(** ** JavaScript values that flow through the store *)

Inductive jsval : Type :=
| JUndefined
| JNull
| JBool (b : bool)
| JString (s : string).

Definition jsval_eq_dec (x y : jsval) : {x = y} + {x <> y}.
Proof. decide equality; [apply bool_dec | apply string_dec]. Defined.

(** [x === y] on the values above. *)
Definition strict_eq (x y : jsval) : bool :=
  if jsval_eq_dec x y then true else false.

(** ToBoolean. *)
Definition truthy (v : jsval) : bool :=
  match v with
  | JUndefined | JNull => false
  | JBool b => b
  | JString s => negb (s =? "")
  end.

(** ToPropertyKey: the key under which [o[v]] reads and writes. *)
Definition prop_key (v : jsval) : string :=
  match v with
  | JUndefined => "undefined"
  | JNull => "null"
  | JBool true => "true"
  | JBool false => "false"
  | JString s => s
  end.

(** ** Plain objects used as maps *)

Module JsObject.

(** Own enumerable properties, oldest first. *)
Definition t (V : Type) : Type := list (string * V).

Section Ops.
Variable V : Type.

Definition empty : t V := [].

(** [o[k]]: [None] stands for [undefined]. *)
Fixpoint get (k : string) (o : t V) : option V :=
  match o with
  | [] => None
  | (k', v) :: r => if k' =? k then Some v else get k r
  end.

(** [o.hasOwnProperty(k)]. *)
Definition has_own (k : string) (o : t V) : bool :=
  match get k o with Some _ => true | None => false end.

(** [o[k] = v]: an existing property keeps its place, a new one is
    created last. *)
Fixpoint set (k : string) (v : V) (o : t V) : t V :=
  match o with
  | [] => [(k, v)]
  | (k', v') :: r => if k' =? k then (k', v) :: r else (k', v') :: set k v r
  end.

(** [delete o[k]]. *)
Definition delete (k : string) (o : t V) : t V :=
  filter (fun p => negb (fst p =? k)) o.

Definition own_keys (o : t V) : list string := map fst o.

(** No key is recorded twice. *)
Definition wf (o : t V) : Prop := NoDup (own_keys o).
End Ops.

(** *** Enumeration order of [for ... in] *)

Definition digit (c : ascii) : option N :=
  let n := N_of_ascii c in
  if (48 <=? n)%N && (n <=? 57)%N then Some (n - 48)%N else None.

Fixpoint digits (s : string) (acc : N) : option N :=
  match s with
  | EmptyString => Some acc
  | String c r =>
      match digit c with
      | Some d => digits r (10 * acc + d)%N
      | None => None
      end
  end.

(** The array index a key denotes, if it is a canonical numeric string
    below 2^32 - 1. *)
Definition array_index (s : string) : option N :=
  match s with
  | EmptyString => None
  | String c r =>
      if (Ascii.eqb c "0") && negb (r =? "") then None
      else match digits s 0 with
           | Some n => if (n <? 4294967295)%N then Some n else None
           | None => None
           end
  end.

Fixpoint insert_by_index (x : N * string) (l : list (N * string))
  : list (N * string) :=
  match l with
  | [] => [x]
  | y :: r => if (fst x <=? fst y)%N then x :: l else y :: insert_by_index x r
  end.

Fixpoint sort_by_index (l : list (N * string)) : list (N * string) :=
  match l with
  | [] => []
  | x :: r => insert_by_index x (sort_by_index r)
  end.

Fixpoint index_keys (ks : list string) : list (N * string) :=
  match ks with
  | [] => []
  | k :: r =>
      match array_index k with
      | Some n => (n, k) :: index_keys r
      | None => index_keys r
      end
  end.

Definition name_keys (ks : list string) : list string :=
  filter (fun k => match array_index k with Some _ => false | None => true end) ks.

(** The keys [for (k in o)] binds, in order. *)
Definition forin_keys {V} (o : t V) : list string :=
  map snd (sort_by_index (index_keys (own_keys o))) ++ name_keys (own_keys o).

End JsObject.

(** ** Collaborators *)

(** How a collaborator's method completes: it returns, or throws an [Error]
    with the given message. *)
Inductive completion : Type :=
| Returns
| ThrowsError (message : string).

(** A [WidgetMessaging] instance, by the behaviour of the three methods the
    store calls on it. *)
Record WidgetMessaging : Type := {
  wm_name : string;
  wm_stop : completion;
  wm_sendEvent : completion;
  wm_sendThemeUpdate : completion
}.

(** A [MatrixEvent], by the accessors the store uses. *)
Module MatrixEvent.
Record t : Type := {
  getType : string;
  getRoomId : string;
  getStateKey : jsval
}.
End MatrixEvent.

(** The handlers the store subscribes with. *)
Inductive handler : Type :=
| OnRoomStateEventsH
| OnRoomTimelineEventsH
| OnActionH.

(** What a call does to the world outside the store's fields. *)
Inductive effect : Type :=
| Emit (event : string)
| ConsoleError (text message : string)
| WmStop (widgetId : string) (wm : WidgetMessaging)
| WmSendEvent (widgetId : string) (wm : WidgetMessaging)
    (ev : MatrixEvent.t) (state : jsval) (roomId : string)
| WmSendThemeUpdate (widgetId : string) (wm : WidgetMessaging) (theme : jsval)
| ClientOn (event : string) (h : handler)
| ClientRemoveListener (event : string) (h : handler)
| DisRegister (h : handler).

(** A thrown value. *)
Inductive exn : Type :=
| TypeError (what : string)
| Error (message : string).

Definition exn_message (e : exn) : string :=
  match e with TypeError m => m | Error m => m end.

Inductive outcome (A : Type) : Type :=
| Ret (a : A)
| Throw (e : exn).
Arguments Throw {A} e.

(** ** The store *)

Record ActiveWidgetStore : Type := {
  _persistentWidgetId : jsval;
  _capsByWidgetId : JsObject.t (list string);
  _widgetMessagingByWidgetId : JsObject.t WidgetMessaging;
  _roomIdByWidgetId : JsObject.t string;
  dispatcherRef : jsval;
  (** Ambient: whether [MatrixClientPeg.get()] yields a client, and the
      token [dis.register] hands out. *)
  peg_has_client : bool;
  dis_token : string
}.

(** The constructor. *)
Definition new_store (client : bool) (token : string) : ActiveWidgetStore := {|
  _persistentWidgetId := JNull;
  _capsByWidgetId := JsObject.empty _;
  _widgetMessagingByWidgetId := JsObject.empty _;
  _roomIdByWidgetId := JsObject.empty _;
  dispatcherRef := JNull;
  peg_has_client := client;
  dis_token := token
|}.

Definition with_persistentWidgetId (v : jsval) (s : ActiveWidgetStore) :=
  {| _persistentWidgetId := v;
     _capsByWidgetId := _capsByWidgetId s;
     _widgetMessagingByWidgetId := _widgetMessagingByWidgetId s;
     _roomIdByWidgetId := _roomIdByWidgetId s;
     dispatcherRef := dispatcherRef s;
     peg_has_client := peg_has_client s;
     dis_token := dis_token s |}.

Definition with_capsByWidgetId (o : JsObject.t (list string)) (s : ActiveWidgetStore) :=
  {| _persistentWidgetId := _persistentWidgetId s;
     _capsByWidgetId := o;
     _widgetMessagingByWidgetId := _widgetMessagingByWidgetId s;
     _roomIdByWidgetId := _roomIdByWidgetId s;
     dispatcherRef := dispatcherRef s;
     peg_has_client := peg_has_client s;
     dis_token := dis_token s |}.

Definition with_widgetMessagingByWidgetId (o : JsObject.t WidgetMessaging)
  (s : ActiveWidgetStore) :=
  {| _persistentWidgetId := _persistentWidgetId s;
     _capsByWidgetId := _capsByWidgetId s;
     _widgetMessagingByWidgetId := o;
     _roomIdByWidgetId := _roomIdByWidgetId s;
     dispatcherRef := dispatcherRef s;
     peg_has_client := peg_has_client s;
     dis_token := dis_token s |}.

Definition with_roomIdByWidgetId (o : JsObject.t string) (s : ActiveWidgetStore) :=
  {| _persistentWidgetId := _persistentWidgetId s;
     _capsByWidgetId := _capsByWidgetId s;
     _widgetMessagingByWidgetId := _widgetMessagingByWidgetId s;
     _roomIdByWidgetId := o;
     dispatcherRef := dispatcherRef s;
     peg_has_client := peg_has_client s;
     dis_token := dis_token s |}.

Definition with_dispatcherRef (v : jsval) (s : ActiveWidgetStore) :=
  {| _persistentWidgetId := _persistentWidgetId s;
     _capsByWidgetId := _capsByWidgetId s;
     _widgetMessagingByWidgetId := _widgetMessagingByWidgetId s;
     _roomIdByWidgetId := _roomIdByWidgetId s;
     dispatcherRef := v;
     peg_has_client := peg_has_client s;
     dis_token := dis_token s |}.

(** ** Methods as state, effect and exception passing *)

Record result (A : Type) : Type := Result {
  final : ActiveWidgetStore;
  trace : list effect;
  completes : outcome A
}.

Definition M (A : Type) : Type := ActiveWidgetStore -> result A.

Definition ret {A} (a : A) : M A := fun s => Result s [] (Ret a).

Definition bind {A B} (m : M A) (f : A -> M B) : M B :=
  fun s =>
    let r := m s in
    match completes r with
    | Ret a =>
        let r' := f a (final r) in
        Result (final r') (trace r ++ trace r') (completes r')
    | Throw e => Result (final r) (trace r) (Throw e)
    end.

Definition throw {A} (e : exn) : M A := fun s => Result s [] (Throw e).

(** [try { m } catch (e) { h e }]. *)
Definition try_catch {A} (m : M A) (h : exn -> M A) : M A :=
  fun s =>
    let r := m s in
    match completes r with
    | Ret a => r
    | Throw e =>
        let r' := h e (final r) in
        Result (final r') (trace r ++ trace r') (completes r')
    end.

Definition gets {A} (f : ActiveWidgetStore -> A) : M A :=
  fun s => Result s [] (Ret (f s)).

Definition modify (f : ActiveWidgetStore -> ActiveWidgetStore) : M unit :=
  fun s => Result (f s) [] (Ret tt).

Definition perform (e : effect) : M unit := fun s => Result s [e] (Ret tt).

(** Calling a collaborator's method: the call is an effect, then the method
    returns or throws. *)
Definition call_out (e : effect) (c : completion) : M unit :=
  bind (perform e)
       (fun _ => match c with
                 | Returns => ret tt
                 | ThrowsError m => throw (Error m)
                 end).

Declare Scope js_scope.
Delimit Scope js_scope with js.
Notation "x <- m ;; k" := (bind m (fun x => k))
  (at level 61, m at next level, right associativity) : js_scope.
Notation "m ;; k" := (bind m (fun _ => k))
  (at level 61, right associativity) : js_scope.
Open Scope js_scope.

(** [for (const k in o) { body k }] over the keys taken at loop entry. *)
Fixpoint for_in (ks : list string) (body : string -> M unit) : M unit :=
  match ks with
  | [] => ret tt
  | k :: r => body k ;; for_in r body
  end.

(** [caps.includes(x)] on an array of strings. *)
Definition includes (caps : list string) (x : string) : bool :=
  existsb (fun c => c =? x) caps.

(** The value of [o[k]] for an object holding strings. *)
Definition read_string (r : option string) : jsval :=
  match r with
  | Some s => JString s
  | None => JUndefined
  end.

(** ** The methods, in source order *)

Definition emit (event : string) : M unit := perform (Emit event).

Definition start : M unit :=
  client <- gets peg_has_client ;;
  (if client then
     perform (ClientOn "RoomState.events" OnRoomStateEventsH) ;;
     perform (ClientOn "Room.timeline" OnRoomTimelineEventsH)
   else throw (TypeError "Cannot read property 'on' of null")) ;;
  token <- gets dis_token ;;
  perform (DisRegister OnActionH) ;;
  modify (with_dispatcherRef (JString token)).

Definition stop : M unit :=
  client <- gets peg_has_client ;;
  (if client then
     perform (ClientRemoveListener "RoomState.events" OnRoomStateEventsH) ;;
     perform (ClientRemoveListener "Room.timeline" OnRoomTimelineEventsH)
   else ret tt) ;;
  modify (with_capsByWidgetId (JsObject.empty _)) ;;
  modify (with_widgetMessagingByWidgetId (JsObject.empty _)) ;;
  modify (with_roomIdByWidgetId (JsObject.empty _)).

(** The body of the loop of [sendEventsToWidgets] for one key. *)
Definition sendEventsToWidgets_body (ev : MatrixEvent.t) (state : jsval)
  (widgetId : string) : M unit :=
  let eventType := MatrixEvent.getType ev in
  own <- gets (fun s => JsObject.has_own widgetId (_capsByWidgetId s)) ;;
  if own then
    caps <- gets (fun s => JsObject.get widgetId (_capsByWidgetId s)) ;;
    let roomId := MatrixEvent.getRoomId ev in
    match caps with
    | None => throw (TypeError "Cannot read property 'includes' of undefined")
    | Some caps =>
        scope <- gets (fun s => read_string (JsObject.get widgetId (_roomIdByWidgetId s))) ;;
        if includes caps eventType
           && (negb (truthy scope) || strict_eq (JString roomId) scope)
        then
          wm <- gets (fun s => JsObject.get widgetId (_widgetMessagingByWidgetId s)) ;;
          match wm with
          | None => throw (TypeError "Cannot read property 'sendEvent' of undefined")
          | Some wm => call_out (WmSendEvent widgetId wm ev state roomId) (wm_sendEvent wm)
          end
        else ret tt
    end
  else ret tt.

Definition sendEventsToWidgets (ev : MatrixEvent.t) (state : jsval) : M unit :=
  ks <- gets (fun s => JsObject.forin_keys (_capsByWidgetId s)) ;;
  for_in ks (sendEventsToWidgets_body ev state).

Definition sendThemeToWidgets_body (theme : jsval) (widgetId : string) : M unit :=
  own <- gets (fun s => JsObject.has_own widgetId (_capsByWidgetId s)) ;;
  if own then
    caps <- gets (fun s => JsObject.get widgetId (_capsByWidgetId s)) ;;
    match caps with
    | None => throw (TypeError "Cannot read property 'includes' of undefined")
    | Some caps =>
        if includes caps "theme_update" then
          wm <- gets (fun s => JsObject.get widgetId (_widgetMessagingByWidgetId s)) ;;
          match wm with
          | None => throw (TypeError "Cannot read property 'sendThemeUpdate' of undefined")
          | Some wm => call_out (WmSendThemeUpdate widgetId wm theme) (wm_sendThemeUpdate wm)
          end
        else ret tt
    end
  else ret tt.

Definition sendThemeToWidgets (theme : jsval) : M unit :=
  ks <- gets (fun s => JsObject.forin_keys (_capsByWidgetId s)) ;;
  for_in ks (sendThemeToWidgets_body theme).

Definition setWidgetPersistence (widgetId : jsval) (val : bool) : M unit :=
  p <- gets _persistentWidgetId ;;
  (if strict_eq p widgetId && negb val then
     modify (with_persistentWidgetId JNull)
   else if negb (strict_eq p widgetId) && val then
     modify (with_persistentWidgetId widgetId)
   else ret tt) ;;
  emit "update".

Definition getWidgetPersistence (widgetId : jsval) : M jsval :=
  p <- gets _persistentWidgetId ;;
  ret (JBool (strict_eq p widgetId)).

Definition getPersistentWidgetId : M jsval :=
  gets _persistentWidgetId.

Definition setWidgetCapabilities (widgetId : jsval) (caps : list string) : M unit :=
  modify (fun s => with_capsByWidgetId
                     (JsObject.set (prop_key widgetId) caps (_capsByWidgetId s)) s) ;;
  emit "update".

(** [a && b] yields [a] when [a] is falsy; an array is truthy. *)
Definition widgetHasCapability (widgetId : jsval) (cap : string) : M jsval :=
  caps <- gets (fun s => JsObject.get (prop_key widgetId) (_capsByWidgetId s)) ;;
  match caps with
  | None => ret JUndefined
  | Some caps => ret (JBool (includes caps cap))
  end.

Definition delWidgetCapabilities (widgetId : jsval) : M unit :=
  modify (fun s => with_capsByWidgetId
                     (JsObject.delete (prop_key widgetId) (_capsByWidgetId s)) s) ;;
  emit "update".

Definition setWidgetMessaging (widgetId : jsval) (wm : WidgetMessaging) : M unit :=
  modify (fun s => with_widgetMessagingByWidgetId
                     (JsObject.set (prop_key widgetId) wm (_widgetMessagingByWidgetId s)) s) ;;
  emit "update".

(** [None] stands for [undefined]. *)
Definition getWidgetMessaging (widgetId : jsval) : M (option WidgetMessaging) :=
  gets (fun s => JsObject.get (prop_key widgetId) (_widgetMessagingByWidgetId s)).

(** An instance is an object, hence truthy: the guard tests presence. *)
Definition delWidgetMessaging (widgetId : jsval) : M unit :=
  let key := prop_key widgetId in
  wm <- gets (fun s => JsObject.get key (_widgetMessagingByWidgetId s)) ;;
  match wm with
  | Some wm =>
      try_catch
        (call_out (WmStop key wm) (wm_stop wm))
        (fun e => perform (ConsoleError
                    "Failed to stop listening for widgetMessaging events"
                    (exn_message e))) ;;
      modify (fun s => with_widgetMessagingByWidgetId
                         (JsObject.delete key (_widgetMessagingByWidgetId s)) s) ;;
      emit "update"
  | None => ret tt
  end.

Definition getRoomId (widgetId : jsval) : M jsval :=
  gets (fun s => read_string (JsObject.get (prop_key widgetId) (_roomIdByWidgetId s))).

Definition setRoomId (widgetId : jsval) (roomId : string) : M unit :=
  modify (fun s => with_roomIdByWidgetId
                     (JsObject.set (prop_key widgetId) roomId (_roomIdByWidgetId s)) s) ;;
  emit "update".

Definition delRoomId (widgetId : jsval) : M unit :=
  modify (fun s => with_roomIdByWidgetId
                     (JsObject.delete (prop_key widgetId) (_roomIdByWidgetId s)) s) ;;
  emit "update".

Definition destroyPersistentWidget : M unit :=
  toDeleteId <- gets _persistentWidgetId ;;
  setWidgetPersistence toDeleteId false ;;
  delWidgetMessaging toDeleteId ;;
  delWidgetCapabilities toDeleteId ;;
  delRoomId toDeleteId.

Definition onRoomStateEvents (ev : MatrixEvent.t) (state : jsval) : M unit :=
  sendEventsToWidgets ev state ;;
  if negb (MatrixEvent.getType ev =? "im.vector.modular.widgets") then ret tt
  else
    p <- gets _persistentWidgetId ;;
    if strict_eq (MatrixEvent.getStateKey ev) p then destroyPersistentWidget else ret tt.

Definition onRoomTimelineEvents (ev : MatrixEvent.t) (state : jsval) : M unit :=
  ret tt.

Record payload : Type := { action : string; value : jsval }.

Definition onAction (p : payload) : M unit :=
  if action p =? "set_theme" then sendThemeToWidgets (value p) else ret tt.

(** ** The public interface as a datatype of calls *)

Inductive retval : Type :=
| RVoid
| RVal (v : jsval)
| RChannel (wm : option WidgetMessaging).

Inductive call : Type :=
| Start
| Stop
| SendEventsToWidgets (ev : MatrixEvent.t) (state : jsval)
| SendThemeToWidgets (theme : jsval)
| OnRoomStateEvents (ev : MatrixEvent.t) (state : jsval)
| OnRoomTimelineEvents (ev : MatrixEvent.t) (state : jsval)
| OnAction (p : payload)
| DestroyPersistentWidget
| SetWidgetPersistence (widgetId : jsval) (val : bool)
| GetWidgetPersistence (widgetId : jsval)
| GetPersistentWidgetId
| SetWidgetCapabilities (widgetId : jsval) (caps : list string)
| WidgetHasCapability (widgetId : jsval) (cap : string)
| DelWidgetCapabilities (widgetId : jsval)
| SetWidgetMessaging (widgetId : jsval) (wm : WidgetMessaging)
| GetWidgetMessaging (widgetId : jsval)
| DelWidgetMessaging (widgetId : jsval)
| GetRoomId (widgetId : jsval)
| SetRoomId (widgetId : jsval) (roomId : string)
| DelRoomId (widgetId : jsval).

Definition void (m : M unit) : M retval := m ;; ret RVoid.
Definition val_of (m : M jsval) : M retval := v <- m ;; ret (RVal v).

Definition exec (c : call) : M retval :=
  match c with
  | Start => void start
  | Stop => void stop
  | SendEventsToWidgets ev state => void (sendEventsToWidgets ev state)
  | SendThemeToWidgets theme => void (sendThemeToWidgets theme)
  | OnRoomStateEvents ev state => void (onRoomStateEvents ev state)
  | OnRoomTimelineEvents ev state => void (onRoomTimelineEvents ev state)
  | OnAction p => void (onAction p)
  | DestroyPersistentWidget => void destroyPersistentWidget
  | SetWidgetPersistence widgetId val => void (setWidgetPersistence widgetId val)
  | GetWidgetPersistence widgetId => val_of (getWidgetPersistence widgetId)
  | GetPersistentWidgetId => val_of getPersistentWidgetId
  | SetWidgetCapabilities widgetId caps => void (setWidgetCapabilities widgetId caps)
  | WidgetHasCapability widgetId cap => val_of (widgetHasCapability widgetId cap)
  | DelWidgetCapabilities widgetId => void (delWidgetCapabilities widgetId)
  | SetWidgetMessaging widgetId wm => void (setWidgetMessaging widgetId wm)
  | GetWidgetMessaging widgetId => wm <- getWidgetMessaging widgetId ;; ret (RChannel wm)
  | DelWidgetMessaging widgetId => void (delWidgetMessaging widgetId)
  | GetRoomId widgetId => val_of (getRoomId widgetId)
  | SetRoomId widgetId roomId => void (setRoomId widgetId roomId)
  | DelRoomId widgetId => void (delRoomId widgetId)
  end.

(** The five read-only calls. *)
Definition is_query (c : call) : bool :=
  match c with
  | GetWidgetPersistence _ | GetPersistentWidgetId | WidgetHasCapability _ _
  | GetWidgetMessaging _ | GetRoomId _ => true
  | _ => false
  end.



(** ** Vocabulary of the statements *)



(** At most one id answers [true] to [getWidgetPersistence]. *)
Definition single_holder (s : ActiveWidgetStore) : Prop :=
  forall X Y,
    completes (getWidgetPersistence X s) = Ret (JBool true) ->
    completes (getWidgetPersistence Y s) = Ret (JBool true) ->
    X = Y.

(** The condition under which the loop of [sendEventsToWidgets] sends to
    [w]: its capabilities include the type, and its room id is missing,
    falsy (the empty string) or the event's. *)
Definition selected (s : ActiveWidgetStore) (ev : MatrixEvent.t) (w : string) : Prop :=
  exists caps,
    JsObject.get w (_capsByWidgetId s) = Some caps /\
    In (MatrixEvent.getType ev) caps /\
    (JsObject.get w (_roomIdByWidgetId s) = None \/
     JsObject.get w (_roomIdByWidgetId s) = Some "" \/
     JsObject.get w (_roomIdByWidgetId s) = Some (MatrixEvent.getRoomId ev)).

(** The same condition in the specification's words: the capability set
    contains the type and the room scope is absent or equal to the event's
    room. *)
Definition spec_matching (s : ActiveWidgetStore) (ev : MatrixEvent.t) (w : string) : Prop :=
  exists caps,
    JsObject.get w (_capsByWidgetId s) = Some caps /\
    In (MatrixEvent.getType ev) caps /\
    (JsObject.get w (_roomIdByWidgetId s) = None \/
     JsObject.get w (_roomIdByWidgetId s) = Some (MatrixEvent.getRoomId ev)).

(** An id none of the three maps knows. *)
Definition unknown (widgetId : jsval) (s : ActiveWidgetStore) : Prop :=
  JsObject.get (prop_key widgetId) (_capsByWidgetId s) = None /\
  JsObject.get (prop_key widgetId) (_widgetMessagingByWidgetId s) = None /\
  JsObject.get (prop_key widgetId) (_roomIdByWidgetId s) = None.

(** The text [delWidgetMessaging] logs when [stop] throws. *)
Definition stop_failure_text : string :=
  "Failed to stop listening for widgetMessaging events".

(** The guard of the loop of [sendEventsToWidgets] at key [w], as the code
    evaluates it. *)
Definition selectedb (s : ActiveWidgetStore) (ev : MatrixEvent.t) (w : string) : bool :=
  match JsObject.get w (_capsByWidgetId s) with
  | Some caps =>
      let scope := read_string (JsObject.get w (_roomIdByWidgetId s)) in
      includes caps (MatrixEvent.getType ev)
      && (negb (truthy scope) || strict_eq (JString (MatrixEvent.getRoomId ev)) scope)
  | None => false
  end.

(** What one round of the loop sends when it returns. *)
Definition forwarded (s : ActiveWidgetStore) (ev : MatrixEvent.t) (state : jsval)
  (w : string) : list effect :=
  if selectedb s ev w then
    match JsObject.get w (_widgetMessagingByWidgetId s) with
    | Some wm => [WmSendEvent w wm ev state (MatrixEvent.getRoomId ev)]
    | None => []
    end
  else [].

(** ** Sample data *)

Definition channel (name : string) : WidgetMessaging :=
  {| wm_name := name; wm_stop := Returns;
     wm_sendEvent := Returns; wm_sendThemeUpdate := Returns |}.

Definition channel_failing_stop (name message : string) : WidgetMessaging :=
  {| wm_name := name; wm_stop := ThrowsError message;
     wm_sendEvent := Returns; wm_sendThemeUpdate := Returns |}.

Definition message_in (room : string) : MatrixEvent.t :=
  {| MatrixEvent.getType := "m.room.message";
     MatrixEvent.getRoomId := room;
     MatrixEvent.getStateKey := JUndefined |}.

Definition fresh : ActiveWidgetStore := new_store true "ID_1".

(** The store after the calls of a script, each assumed to return. *)
Definition after (script : list call) (s : ActiveWidgetStore) : ActiveWidgetStore :=
  fold_left (fun s c => final (exec c s)) script s.



(** ["w1"] with capabilities, a channel and the empty string as room id. *)
Definition w1_empty_room : ActiveWidgetStore :=
  after [SetWidgetCapabilities (JString "w1") ["m.room.message"];
         SetRoomId (JString "w1") "";
         SetWidgetMessaging (JString "w1") (channel "c1")] fresh.

(** ["w1"] fully registered for ["room1"]. *)
Definition w1_in_room1 : ActiveWidgetStore :=
  after [SetWidgetCapabilities (JString "w1") ["m.room.message"];
         SetRoomId (JString "w1") "room1";
         SetWidgetMessaging (JString "w1") (channel "c1")] fresh.

(** ["w1"] persistent, with capabilities, a room and a channel whose [stop]
    throws. *)
Definition w1_persistent : ActiveWidgetStore :=
  after [SetWidgetCapabilities (JString "w1") ["m.room.message"];
         SetRoomId (JString "w1") "room1";
         SetWidgetMessaging (JString "w1") (channel_failing_stop "c1" "boom");
         SetWidgetPersistence (JString "w1") true] fresh.

(** ** Vocabulary for the remaining methods *)




(** How the round of the loop of [sendEventsToWidgets] at key [w] throws,
    if it does: the widget is selected and has no channel, or its
    [sendEvent] throws. *)
Definition send_failure (s : ActiveWidgetStore) (ev : MatrixEvent.t) (w : string)
  : option exn :=
  if selectedb s ev w then
    match JsObject.get w (_widgetMessagingByWidgetId s) with
    | None => Some (TypeError "Cannot read property 'sendEvent' of undefined")
    | Some wm =>
        match wm_sendEvent wm with
        | Returns => None
        | ThrowsError m => Some (Error m)
        end
    end
  else None.

(** The calls whose body assigns to, or runs a method that assigns to, each
    field of the store. *)
Definition writes_persistentWidgetId (c : call) : bool :=
  match c with
  | SetWidgetPersistence _ _ | DestroyPersistentWidget | OnRoomStateEvents _ _ => true
  | _ => false
  end.

Definition writes_capsByWidgetId (c : call) : bool :=
  match c with
  | SetWidgetCapabilities _ _ | DelWidgetCapabilities _ | Stop
  | DestroyPersistentWidget | OnRoomStateEvents _ _ => true
  | _ => false
  end.

Definition writes_widgetMessagingByWidgetId (c : call) : bool :=
  match c with
  | SetWidgetMessaging _ _ | DelWidgetMessaging _ | Stop
  | DestroyPersistentWidget | OnRoomStateEvents _ _ => true
  | _ => false
  end.

Definition writes_roomIdByWidgetId (c : call) : bool :=
  match c with
  | SetRoomId _ _ | DelRoomId _ | Stop
  | DestroyPersistentWidget | OnRoomStateEvents _ _ => true
  | _ => false
  end.

Definition writes_dispatcherRef (c : call) : bool :=
  match c with
  | Start => true
  | _ => false
  end.

(** The effects of a trace that are calls on a channel. *)
Definition is_channel_call (e : effect) : bool :=
  match e with
  | WmStop _ _ | WmSendEvent _ _ _ _ _ | WmSendThemeUpdate _ _ _ => true
  | _ => false
  end.

(** The state event that defines, changes or removes the widget [key]. *)
Definition widget_event (room : string) (key : jsval) : MatrixEvent.t :=
  {| MatrixEvent.getType := "im.vector.modular.widgets";
     MatrixEvent.getRoomId := room;
     MatrixEvent.getStateKey := key |}.

(** ["w1"] and ["w2"] subscribed to theme updates, each with a channel, and
    ["w2"] bound to a room. *)
Definition two_themed_widgets : ActiveWidgetStore :=
  after [SetWidgetCapabilities (JString "w1") ["theme_update"];
         SetWidgetMessaging (JString "w1") (channel "c1");
         SetWidgetCapabilities (JString "w2") ["m.room.message"; "theme_update"];
         SetWidgetMessaging (JString "w2") (channel "c2");
         SetRoomId (JString "w2") "room1"] fresh.




(** ["w1"] persistent with the same capability but no channel bound. *)
Definition w1_persistent_no_channel : ActiveWidgetStore :=
  after [SetWidgetCapabilities (JString "w1") ["im.vector.modular.widgets"];
         SetWidgetPersistence (JString "w1") true] fresh.

(** The ['update'] notifications of a trace. *)
Definition is_update (e : effect) : bool :=
  match e with
  | Emit event => event =? "update"
  | _ => false
  end.

(** No persistent widget, and a widget whose id is the string ["null"]. *)
Definition widget_named_null : ActiveWidgetStore :=
  after [SetWidgetCapabilities (JString "null") ["m.room.message"];
         SetWidgetMessaging (JString "null") (channel "c0");
         SetRoomId (JString "null") "room1"] fresh.


(** * Properties *)

(** ** Strict equality *)

Lemma strict_eq_true x y : strict_eq x y = true <-> x = y.
Proof. unfold strict_eq; destruct (jsval_eq_dec x y); split; congruence. Qed.

Lemma strict_eq_false x y : strict_eq x y = false <-> x <> y.
Proof. unfold strict_eq; destruct (jsval_eq_dec x y); split; congruence. Qed.

Lemma strict_eq_refl x : strict_eq x x = true.
Proof. now apply strict_eq_true. Qed.

Lemma includes_In caps x : includes caps x = true <-> In x caps.
Proof.
  unfold includes; rewrite existsb_exists; split.
  - intros (c & Hc & E); apply String.eqb_eq in E; now subst.
  - intros H; exists x; split; [assumption | apply String.eqb_refl].
Qed.

(** ** Objects as maps *)

Module JsObjectFacts.
Import JsObject.

Section Facts.
Variable V : Type.
Implicit Types (o : t V) (k : string) (v : V).

Lemma get_empty k : get k (empty V) = None.
Proof. reflexivity. Qed.




Lemma get_delete_other k k' o : k' <> k -> get k' (delete k o) = get k' o.
Proof.
  intros Hne; induction o as [|[k0 v0] r IH]; simpl; [reflexivity|].
  destruct (k0 =? k) eqn:E; simpl.
  - apply String.eqb_eq in E; subst k0.
    destruct (k =? k') eqn:E'; [apply String.eqb_eq in E'; congruence | exact IH].
  - now rewrite IH.
Qed.

Lemma get_Some_In k v o : get k o = Some v -> In k (own_keys o).
Proof.
  induction o as [|[k' v'] r IH]; simpl; [discriminate|].
  destruct (k' =? k) eqn:E; [apply String.eqb_eq in E; now left | auto].
Qed.

Lemma In_get_Some k o : In k (own_keys o) -> exists v, get k o = Some v.
Proof.
  induction o as [|[k' v'] r IH]; simpl; [tauto|].
  intros [->|H].
  - rewrite String.eqb_refl; eauto.
  - destruct (k' =? k); eauto.
Qed.

Lemma get_None_iff k o : get k o = None <-> ~ In k (own_keys o).
Proof.
  split.
  - intros E H; apply In_get_Some in H as [v Hv]; congruence.
  - intros H; destruct (get k o) eqn:E; [|reflexivity].
    exfalso; eauto using get_Some_In.
Qed.


Lemma wf_empty : wf (empty V).
Proof. constructor. Qed.


End Facts.

(** *** The enumeration is a rearrangement of the own keys *)







End JsObjectFacts.

(** ** Running a method *)

Ltac unfold_monad :=
  unfold void, val_of, emit, call_out, try_catch, bind, gets, modify, perform,
    ret, throw in *; simpl in *.

Lemma bind_returns A B (m : M A) (f : A -> M B) s a :
  completes (m s) = Ret a ->
  bind m f s =
    Result (final (f a (final (m s))))
           (trace (m s) ++ trace (f a (final (m s))))
           (completes (f a (final (m s)))).
Proof. unfold bind; now intros ->. Qed.

Lemma bind_throws A B (m : M A) (f : A -> M B) s e :
  completes (m s) = Throw e ->
  bind m f s = Result (final (m s)) (trace (m s)) (Throw e).
Proof. unfold bind; now intros ->. Qed.

(** ** The persistent-widget pointer *)

Lemma setWidgetPersistence_run widgetId val s :
  setWidgetPersistence widgetId val s =
    Result
      (if strict_eq (_persistentWidgetId s) widgetId && negb val
       then with_persistentWidgetId JNull s
       else if negb (strict_eq (_persistentWidgetId s) widgetId) && val
            then with_persistentWidgetId widgetId s
            else s)
      [Emit "update"] (Ret tt).
Proof.
  unfold setWidgetPersistence; unfold_monad.
  destruct (strict_eq (_persistentWidgetId s) widgetId), val; reflexivity.
Qed.

Lemma setWidgetPersistence_true widgetId s :
  _persistentWidgetId (final (setWidgetPersistence widgetId true s)) = widgetId.
Proof.
  rewrite setWidgetPersistence_run; simpl.
  rewrite andb_false_r, andb_true_r.
  destruct (strict_eq (_persistentWidgetId s) widgetId) eqn:E; simpl;
    [now apply strict_eq_true in E | reflexivity].
Qed.

Lemma single_holder_any s : single_holder s.
Proof.
  intros X Y HX HY; unfold getWidgetPersistence in *; unfold_monad.
  injection HX as HX; injection HY as HY.
  apply strict_eq_true in HX, HY; congruence.
Qed.

(** C1. For distinct ids A and B and any store, after
    [setWidgetPersistence(A, true)] then [setWidgetPersistence(B, true)] both
    calls have returned, [getPersistentWidgetId()] is B and
    [getWidgetPersistence(A)] is [false]; before, between and after the two
    calls at most one id holds persistence. *)
Theorem setWidgetPersistence_replaces_holder (A B : jsval) (s : ActiveWidgetStore) :
  A <> B ->
  let s1 := final (setWidgetPersistence A true s) in
  let r := (setWidgetPersistence A true ;; setWidgetPersistence B true) s in
  completes r = Ret tt /\
  completes (getPersistentWidgetId (final r)) = Ret B /\
  completes (getWidgetPersistence A (final r)) = Ret (JBool false) /\
  single_holder s /\ single_holder s1 /\ single_holder (final r).
Proof.
  intros Hne s1 r.
  assert (Hr : final r = final (setWidgetPersistence B true s1)).
  { subst r s1; unfold bind; now rewrite !setWidgetPersistence_run. }
  assert (Hp : _persistentWidgetId (final r) = B).
  { rewrite Hr; apply setWidgetPersistence_true. }
  repeat split; try apply single_holder_any.
  - subst r; unfold bind; now rewrite !setWidgetPersistence_run.
  - unfold getPersistentWidgetId, gets; simpl; now rewrite Hp.
  - unfold getWidgetPersistence; unfold_monad; rewrite Hp.
    assert (E : strict_eq B A = false) by (apply strict_eq_false; congruence).
    now rewrite E.
Qed.

Lemma setWidgetPersistence_replaces_holder_witness :
  JString "a" <> JString "b" /\
  completes (getPersistentWidgetId
               (final ((setWidgetPersistence (JString "a") true ;;
                        setWidgetPersistence (JString "b") true) fresh)))
    = Ret (JString "b").
Proof.
  split; [discriminate|].
  apply (setWidgetPersistence_replaces_holder (A := JString "a") (B := JString "b") fresh).
  discriminate.
Defined.

(** C7. For every id X other than the current holder,
    [setWidgetPersistence(X, false)] leaves [getPersistentWidgetId()] as it
    was. *)
Theorem setWidgetPersistence_false_non_holder (X : jsval) (s : ActiveWidgetStore) :
  _persistentWidgetId s <> X ->
  completes (getPersistentWidgetId (final (setWidgetPersistence X false s)))
  = completes (getPersistentWidgetId s).
Proof.
  intros Hne; rewrite setWidgetPersistence_run; simpl.
  apply strict_eq_false in Hne; now rewrite Hne.
Qed.

Lemma setWidgetPersistence_false_non_holder_witness :
  _persistentWidgetId (final (setWidgetPersistence (JString "a") true fresh))
    <> JString "b" /\
  completes (getPersistentWidgetId
               (final (setWidgetPersistence (JString "b") false
                         (final (setWidgetPersistence (JString "a") true fresh)))))
  = Ret (JString "a").
Proof.
  split; [discriminate|].
  apply (setWidgetPersistence_false_non_holder (X := JString "b")
           (final (setWidgetPersistence (JString "a") true fresh))).
  discriminate.
Defined.

(** The calls that leave the state as it was: clearing a non-holder and
    setting the holder again. *)
Lemma setWidgetPersistence_unchanged (widgetId : jsval) (s : ActiveWidgetStore) :
  (_persistentWidgetId s <> widgetId ->
   final (setWidgetPersistence widgetId false s) = s) /\
  (_persistentWidgetId s = widgetId ->
   final (setWidgetPersistence widgetId true s) = s).
Proof.
  rewrite !setWidgetPersistence_run; simpl; split.
  - intros H; apply strict_eq_false in H; now rewrite H.
  - intros H; apply strict_eq_true in H; now rewrite H.
Qed.

(** C8. [setWidgetPersistence] returns and emits ['update'] exactly once on
    every call, whatever the id, the flag and the state, hence also on the
    calls that leave the state as it was. *)
Theorem setWidgetPersistence_always_emits (widgetId : jsval) (val : bool)
  (s : ActiveWidgetStore) :
  trace (setWidgetPersistence widgetId val s) = [Emit "update"] /\
  completes (setWidgetPersistence widgetId val s) = Ret tt.
Proof. rewrite setWidgetPersistence_run; split; reflexivity. Qed.

(** ** Queries *)

Lemma query_run c s :
  is_query c = true ->
  exists v, exec c s = Result s [] (Ret v).
Proof.
  destruct c; try discriminate; intros _; simpl;
    unfold getWidgetPersistence, getPersistentWidgetId, widgetHasCapability,
      getWidgetMessaging, getRoomId; unfold_monad; eauto.
  destruct (JsObject.get _ _); simpl; eauto.
Qed.




(** ** Capabilities *)




(** With a capability set, the result is the boolean [includes] gives. *)
Lemma widgetHasCapability_known widgetId cap caps s :
  JsObject.get (prop_key widgetId) (_capsByWidgetId s) = Some caps ->
  widgetHasCapability widgetId cap s = Result s [] (Ret (JBool (includes caps cap))).
Proof.
  intros E; unfold widgetHasCapability; unfold_monad; now rewrite E.
Qed.

(** ** Removing a messaging channel *)

Lemma delWidgetMessaging_bound widgetId wm s :
  JsObject.get (prop_key widgetId) (_widgetMessagingByWidgetId s) = Some wm ->
  delWidgetMessaging widgetId s =
    Result
      (with_widgetMessagingByWidgetId
         (JsObject.delete (prop_key widgetId) (_widgetMessagingByWidgetId s)) s)
      (WmStop (prop_key widgetId) wm ::
       match wm_stop wm with
       | Returns => [Emit "update"]
       | ThrowsError m => [ConsoleError stop_failure_text m; Emit "update"]
       end)
      (Ret tt).
Proof.
  intros E; unfold delWidgetMessaging; unfold_monad; rewrite E.
  destruct (wm_stop wm); reflexivity.
Qed.

Lemma delWidgetMessaging_unbound widgetId s :
  JsObject.get (prop_key widgetId) (_widgetMessagingByWidgetId s) = None ->
  delWidgetMessaging widgetId s = Result s [] (Ret tt).
Proof.
  intros E; unfold delWidgetMessaging; unfold_monad; now rewrite E.
Qed.



(** ** Tearing down the persistent widget *)

Lemma destroyPersistentWidget_run s :
  destroyPersistentWidget s =
    (setWidgetPersistence (_persistentWidgetId s) false ;;
     delWidgetMessaging (_persistentWidgetId s) ;;
     delWidgetCapabilities (_persistentWidgetId s) ;;
     delRoomId (_persistentWidgetId s)) s.
Proof.
  unfold destroyPersistentWidget at 1; unfold bind at 1; simpl.
  now destruct (bind _ _ s).
Qed.

Lemma delWidgetMessaging_returns widgetId s :
  completes (delWidgetMessaging widgetId s) = Ret tt /\
  _persistentWidgetId (final (delWidgetMessaging widgetId s)) = _persistentWidgetId s /\
  _capsByWidgetId (final (delWidgetMessaging widgetId s)) = _capsByWidgetId s /\
  _roomIdByWidgetId (final (delWidgetMessaging widgetId s)) = _roomIdByWidgetId s /\
  _widgetMessagingByWidgetId (final (delWidgetMessaging widgetId s)) =
    JsObject.delete (prop_key widgetId) (_widgetMessagingByWidgetId s).
Proof.
  destruct (JsObject.get (prop_key widgetId) (_widgetMessagingByWidgetId s)) as [wm|] eqn:E.
  - rewrite (delWidgetMessaging_bound _ _ E); simpl; repeat split.
  - rewrite (delWidgetMessaging_unbound _ _ E); simpl; repeat split.
    apply JsObjectFacts.get_None_iff in E.
    unfold JsObject.delete; symmetry; apply forallb_filter_id.
    apply forallb_forall; intros [k v] Hin; simpl.
    destruct (k =? prop_key widgetId) eqn:Ek; [|reflexivity].
    apply String.eqb_eq in Ek; subst k.
    exfalso; apply E; unfold JsObject.own_keys.
    apply in_map_iff; exists (prop_key widgetId, v); auto.
Qed.

Lemma destroyPersistentWidget_final s :
  completes (destroyPersistentWidget s) = Ret tt /\
  final (destroyPersistentWidget s) =
    {| _persistentWidgetId := JNull;
       _capsByWidgetId :=
         JsObject.delete (prop_key (_persistentWidgetId s)) (_capsByWidgetId s);
       _widgetMessagingByWidgetId :=
         JsObject.delete (prop_key (_persistentWidgetId s)) (_widgetMessagingByWidgetId s);
       _roomIdByWidgetId :=
         JsObject.delete (prop_key (_persistentWidgetId s)) (_roomIdByWidgetId s);
       dispatcherRef := dispatcherRef s;
       peg_has_client := peg_has_client s;
       dis_token := dis_token s |}.
Proof.
  rewrite destroyPersistentWidget_run.
  set (w := _persistentWidgetId s).
  erewrite bind_returns by now rewrite setWidgetPersistence_run.
  rewrite setWidgetPersistence_run; cbn [final trace completes].
  subst w; rewrite strict_eq_refl; cbn [andb negb].
  set (w := _persistentWidgetId s).
  set (s1 := with_persistentWidgetId JNull s).
  destruct (delWidgetMessaging_returns w s1) as (Hc & Hp & Hcaps & Hrooms & Hwm).
  erewrite bind_returns by exact Hc; cbn [final trace completes].
  destruct (final (delWidgetMessaging w s1)) as [p c m r d g t] eqn:E.
  assert (Hd : d = dispatcherRef s /\ g = peg_has_client s /\ t = dis_token s).
  { clear - E; subst s1; unfold delWidgetMessaging in E; unfold_monad.
    destruct (JsObject.get _ _) as [wm|]; [destruct (wm_stop wm)|];
      simpl in E; injection E; intros; subst; auto. }
  destruct Hd as (-> & -> & ->); simpl in *; subst.
  split; reflexivity.
Qed.



(** The four effects of the teardown on the sample store, whose channel
    throws on [stop]. *)
Example destroyPersistentWidget_sample :
  destroyPersistentWidget w1_persistent =
    Result fresh
      [Emit "update";
       WmStop "w1" (channel_failing_stop "c1" "boom");
       ConsoleError stop_failure_text "boom";
       Emit "update"; Emit "update"; Emit "update"]
      (Ret tt).
Proof. reflexivity. Qed.

(** ** Stopping the store *)


(** [stop] on the sample store with a persistent widget. *)
Example stop_sample :
  _persistentWidgetId (final (stop w1_persistent)) = JString "w1" /\
  trace (stop w1_persistent) =
    [ClientRemoveListener "RoomState.events" OnRoomStateEventsH;
     ClientRemoveListener "Room.timeline" OnRoomTimelineEventsH].
Proof. split; reflexivity. Qed.

(** ** The maps never record a key twice *)

Lemma for_in_final (body : string -> M unit) ks s :
  (forall k s', final (body k s') = s') ->
  final (for_in ks body s) = s.
Proof.
  intros Hb; revert s; induction ks as [|k r IH]; intros s; simpl; [reflexivity|].
  unfold bind; destruct (completes (body k s)); simpl; [|apply Hb].
  now rewrite IH, Hb.
Qed.

Lemma sendEventsToWidgets_body_final ev state k s :
  final (sendEventsToWidgets_body ev state k s) = s.
Proof.
  unfold sendEventsToWidgets_body; unfold_monad.
  destruct (JsObject.has_own _ _); simpl; [|reflexivity].
  destruct (JsObject.get k (_capsByWidgetId s)); simpl; [|reflexivity].
  destruct (_ && _); simpl; [|reflexivity].
  destruct (JsObject.get k (_widgetMessagingByWidgetId s)) as [wm|]; simpl;
    [destruct (wm_sendEvent wm)|]; reflexivity.
Qed.

Lemma sendThemeToWidgets_body_final theme k s :
  final (sendThemeToWidgets_body theme k s) = s.
Proof.
  unfold sendThemeToWidgets_body; unfold_monad.
  destruct (JsObject.has_own _ _); simpl; [|reflexivity].
  destruct (JsObject.get k (_capsByWidgetId s)); simpl; [|reflexivity].
  destruct (includes _ _); simpl; [|reflexivity].
  destruct (JsObject.get k (_widgetMessagingByWidgetId s)) as [wm|]; simpl;
    [destruct (wm_sendThemeUpdate wm)|]; reflexivity.
Qed.

Lemma sendEventsToWidgets_final ev state s :
  final (sendEventsToWidgets ev state s) = s.
Proof.
  unfold sendEventsToWidgets, bind at 1, gets; simpl.
  apply for_in_final; intros; apply sendEventsToWidgets_body_final.
Qed.

Lemma sendThemeToWidgets_final theme s :
  final (sendThemeToWidgets theme s) = s.
Proof.
  unfold sendThemeToWidgets, bind at 1, gets; simpl.
  apply for_in_final; intros; apply sendThemeToWidgets_body_final.
Qed.

Lemma void_final (m : M unit) s : final (void m s) = final (m s).
Proof. unfold void, bind, ret; now destruct (completes (m s)). Qed.


Lemma void_trace (m : M unit) s : trace (void m s) = trace (m s).
Proof.
  unfold void, bind, ret; destruct (completes (m s)); simpl;
    [apply app_nil_r | reflexivity].
Qed.





(** ** Which calls can throw *)


(** [start] throws as well when no client is available. *)
Example start_throws_without_client :
  completes (exec Start (new_store false "ID_1"))
  = Throw (TypeError "Cannot read property 'on' of null").
Proof. reflexivity. Qed.




(** ** Forwarding events *)

Lemma read_string_falsy r :
  truthy (read_string r) = false <-> r = None \/ r = Some "".
Proof.
  destruct r as [x|]; simpl.
  - rewrite negb_false_iff, String.eqb_eq; split.
    + intros ->; now right.
    + intros [H|H]; congruence.
  - split; auto.
Qed.

Lemma read_string_eq room r :
  strict_eq (JString room) (read_string r) = true <-> r = Some room.
Proof.
  rewrite strict_eq_true; destruct r; simpl; split; congruence.
Qed.

Lemma selectedb_selected s ev w : selectedb s ev w = true <-> selected s ev w.
Proof.
  unfold selectedb, selected.
  destruct (JsObject.get w (_capsByWidgetId s)) as [caps|].
  - rewrite andb_true_iff, orb_true_iff, negb_true_iff, includes_In,
      read_string_falsy, read_string_eq.
    split.
    + intros [Hin Hs]; exists caps; intuition.
    + intros (caps' & E & Hin & Hs); injection E as <-; intuition.
  - split; [discriminate | intros (caps & E & _); discriminate].
Qed.


(** Where no room id is the empty string, the guard is the specification's
    condition. *)
Lemma selected_spec_matching s ev w :
  JsObject.get w (_roomIdByWidgetId s) <> Some "" ->
  selected s ev w <-> spec_matching s ev w.
Proof.
  intros Hne; unfold selected, spec_matching; split;
    intros (caps & E & Hin & Hs); exists caps; intuition.
Qed.

(** One round of the loop, when a selected widget has a channel whose
    [sendEvent] returns. *)
Lemma sendEventsToWidgets_body_run ev state k s :
  (selectedb s ev k = true ->
   exists wm, JsObject.get k (_widgetMessagingByWidgetId s) = Some wm /\
              wm_sendEvent wm = Returns) ->
  sendEventsToWidgets_body ev state k s = Result s (forwarded s ev state k) (Ret tt).
Proof.
  unfold sendEventsToWidgets_body, forwarded, selectedb, JsObject.has_own.
  unfold_monad.
  destruct (JsObject.get k (_capsByWidgetId s)) as [caps|] eqn:Ec;
    simpl; rewrite ?Ec; simpl; [|reflexivity].
  destruct (_ && _); simpl; [|reflexivity].
  intros H; destruct (H eq_refl) as (wm & Hwm & Hret); rewrite Hwm; simpl.
  now rewrite Hret.
Qed.








(** A room id that is the empty string counts as no room id: the event of
    another room is forwarded, though the room scope is neither absent nor
    the event's room. *)
Example sendEventsToWidgets_empty_room_id :
  ~ spec_matching w1_empty_room (message_in "room1") "w1" /\
  trace (sendEventsToWidgets (message_in "room1") JNull w1_empty_room)
    = [WmSendEvent "w1" (channel "c1") (message_in "room1") JNull "room1"].
Proof.
  split; [|reflexivity].
  intros (caps & _ & _ & [H|H]); discriminate H.
Qed.




(** The specification's sample run: with capabilities [["m.room.message"]],
    room ["room1"] and a channel for ["w1"], a message in ["room1"] is sent
    to the channel once and a message in ["room2"] is not sent. *)
Example sendEventsToWidgets_sample :
  trace (sendEventsToWidgets (message_in "room1") JNull w1_in_room1)
    = [WmSendEvent "w1" (channel "c1") (message_in "room1") JNull "room1"] /\
  trace (sendEventsToWidgets (message_in "room2") JNull w1_in_room1) = [].
Proof. split; reflexivity. Qed.

(** * Further properties of the methods *)

(** ** The setters and deleters, one equation each *)






Lemma delete_absent V k (o : JsObject.t V) :
  JsObject.get k o = None -> JsObject.delete k o = o.
Proof.
  induction o as [|[k' v] r IH]; simpl; [reflexivity|].
  destruct (k' =? k); simpl; [discriminate|].
  intros H; now rewrite IH.
Qed.

Lemma store_eta s :
  {| _persistentWidgetId := _persistentWidgetId s;
     _capsByWidgetId := _capsByWidgetId s;
     _widgetMessagingByWidgetId := _widgetMessagingByWidgetId s;
     _roomIdByWidgetId := _roomIdByWidgetId s;
     dispatcherRef := dispatcherRef s;
     peg_has_client := peg_has_client s;
     dis_token := dis_token s |} = s.
Proof. now destruct s. Qed.

(** ** Capabilities: set, test, delete *)





(** ** Messaging channels: bind, read, remove *)





(** X5. Whatever the channel's [stop] does, [delWidgetMessaging] changes
    nothing but the binding of its own key: the persistent id, the
    capability sets, the room ids and the channels under every other key
    are as before. *)
Theorem delWidgetMessaging_touches_one_binding (widgetId : jsval) (s : ActiveWidgetStore) :
  let r := delWidgetMessaging widgetId s in
  _persistentWidgetId (final r) = _persistentWidgetId s /\
  _capsByWidgetId (final r) = _capsByWidgetId s /\
  _roomIdByWidgetId (final r) = _roomIdByWidgetId s /\
  forall other,
    prop_key other <> prop_key widgetId ->
    completes (getWidgetMessaging other (final r)) = completes (getWidgetMessaging other s).
Proof.
  destruct (delWidgetMessaging_returns widgetId s) as (_ & Hp & Hc & Hr & Hm).
  cbn zeta; repeat split; try assumption.
  intros other Hne; unfold getWidgetMessaging, gets; cbn [completes].
  now rewrite Hm, (JsObjectFacts.get_delete_other _ Hne).
Qed.

Lemma delWidgetMessaging_touches_one_binding_witness :
  prop_key (JString "w2") <> prop_key (JString "w1") /\
  completes (getWidgetMessaging (JString "w2")
               (final (delWidgetMessaging (JString "w1") two_themed_widgets)))
  = Ret (Some (channel "c2")).
Proof.
  split; [discriminate|].
  pose proof (delWidgetMessaging_touches_one_binding (JString "w1") two_themed_widgets)
    as (_ & _ & _ & H).
  now rewrite (H (JString "w2")) by discriminate.
Defined.

(** ** Room ids: set, read, delete *)



(** ** The room-state handler *)

Lemma bind_gets A B (f : ActiveWidgetStore -> A) (k : A -> M B) s :
  bind (gets f) k s = k (f s) s.
Proof. unfold bind, gets; simpl; now destruct (k (f s) s). Qed.

Lemma bind_ret_tt (m : M unit) s :
  completes (m s) = Ret tt ->
  bind m (fun _ => ret tt) s = m s.
Proof.
  unfold bind, ret; intros E; rewrite E; simpl; rewrite app_nil_r.
  destruct (m s); simpl in *; now subst.
Qed.

Lemma onRoomStateEvents_run ev state s :
  onRoomStateEvents ev state s =
    let r := sendEventsToWidgets ev state s in
    match completes r with
    | Throw e => Result s (trace r) (Throw e)
    | Ret _ =>
        if (MatrixEvent.getType ev =? "im.vector.modular.widgets")
           && strict_eq (MatrixEvent.getStateKey ev) (_persistentWidgetId s)
        then Result (final (destroyPersistentWidget s))
               (trace r ++ trace (destroyPersistentWidget s)) (Ret tt)
        else Result s (trace r) (Ret tt)
    end.
Proof.
  cbn zeta; unfold onRoomStateEvents, bind at 1.
  rewrite sendEventsToWidgets_final.
  destruct (completes (sendEventsToWidgets ev state s)) as [[]|e]; [|reflexivity].
  destruct (MatrixEvent.getType ev =? "im.vector.modular.widgets");
    cbn [negb andb]; [|unfold ret; cbn [final trace completes]; now rewrite app_nil_r].
  rewrite bind_gets.
  destruct (strict_eq _ _).
  - now destruct (destroyPersistentWidget_final s) as [-> _].
  - unfold ret; cbn [final trace completes]; now rewrite app_nil_r.
Qed.



(** X8. [onRoomStateEvents] leaves every field of the store as it was in
    each of the other cases: the forwarding throws (the error is passed on
    and the teardown is skipped, also for the persistent widget's own
    definition event), the event is of another type, or its state key is
    not the persistent id. *)
Theorem onRoomStateEvents_keeps_store (ev : MatrixEvent.t) (state : jsval)
  (s : ActiveWidgetStore) :
  (forall e, completes (sendEventsToWidgets ev state s) = Throw e ->
     onRoomStateEvents ev state s
     = Result s (trace (sendEventsToWidgets ev state s)) (Throw e)) /\
  (MatrixEvent.getType ev <> "im.vector.modular.widgets" \/
   MatrixEvent.getStateKey ev <> _persistentWidgetId s ->
   final (onRoomStateEvents ev state s) = s /\
   trace (onRoomStateEvents ev state s) = trace (sendEventsToWidgets ev state s)).
Proof.
  rewrite onRoomStateEvents_run; cbn zeta; split.
  - intros e ->; reflexivity.
  - intros H.
    assert (E : (MatrixEvent.getType ev =? "im.vector.modular.widgets")
                && strict_eq (MatrixEvent.getStateKey ev) (_persistentWidgetId s) = false).
    { apply andb_false_iff; destruct H as [H|H];
        [left; now apply String.eqb_neq | right; now apply strict_eq_false]. }
    rewrite E; destruct (completes (sendEventsToWidgets ev state s)); split; reflexivity.
Qed.

Lemma onRoomStateEvents_keeps_store_witness :
  completes (sendEventsToWidgets (widget_event "room1" (JString "w1")) JNull
               w1_persistent_no_channel)
    = Throw (TypeError "Cannot read property 'sendEvent' of undefined") /\
  final (onRoomStateEvents (widget_event "room1" (JString "w1")) JNull
           w1_persistent_no_channel) = w1_persistent_no_channel /\
  _persistentWidgetId w1_persistent_no_channel = JString "w1".
Proof.
  split; [reflexivity|]. split; [|reflexivity].
  rewrite (proj1 (onRoomStateEvents_keeps_store (widget_event "room1" (JString "w1"))
                    JNull w1_persistent_no_channel)
             (TypeError "Cannot read property 'sendEvent' of undefined"));
    reflexivity.
Defined.

(** ** Which call writes which field *)

Lemma delWidgetMessaging_final widgetId s :
  final (delWidgetMessaging widgetId s) =
    with_widgetMessagingByWidgetId
      (JsObject.delete (prop_key widgetId) (_widgetMessagingByWidgetId s)) s.
Proof.
  destruct (JsObject.get (prop_key widgetId) (_widgetMessagingByWidgetId s)) as [wm|] eqn:E.
  - now rewrite (delWidgetMessaging_bound _ _ E).
  - rewrite (delWidgetMessaging_unbound _ _ E); cbn [final].
    unfold with_widgetMessagingByWidgetId; rewrite (delete_absent _ _ E).
    symmetry; apply store_eta.
Qed.

Ltac frame_done := repeat split; intros; try discriminate; auto.

(** X9. A call changes a field of the store only if its body, or a method
    it runs, assigns to it: the persistent id is written by
    [setWidgetPersistence], [destroyPersistentWidget] and
    [onRoomStateEvents] only; each map by its setter and deleter, [stop],
    [destroyPersistentWidget] and [onRoomStateEvents] only;
    [dispatcherRef] by [start] only.  This holds whether the call returns
    or throws. *)
Theorem calls_write_only_their_fields (c : call) (s : ActiveWidgetStore) :
  (writes_persistentWidgetId c = false ->
   _persistentWidgetId (final (exec c s)) = _persistentWidgetId s) /\
  (writes_capsByWidgetId c = false ->
   _capsByWidgetId (final (exec c s)) = _capsByWidgetId s) /\
  (writes_widgetMessagingByWidgetId c = false ->
   _widgetMessagingByWidgetId (final (exec c s)) = _widgetMessagingByWidgetId s) /\
  (writes_roomIdByWidgetId c = false ->
   _roomIdByWidgetId (final (exec c s)) = _roomIdByWidgetId s) /\
  (writes_dispatcherRef c = false ->
   dispatcherRef (final (exec c s)) = dispatcherRef s).
Proof.
  destruct (is_query c) eqn:Q;
    [destruct (query_run c s Q) as [v E]; rewrite E; frame_done|].
  destruct c; try discriminate Q; cbn [exec]; rewrite void_final;
    cbn [writes_persistentWidgetId writes_capsByWidgetId
           writes_widgetMessagingByWidgetId writes_roomIdByWidgetId
           writes_dispatcherRef].
  - unfold start; unfold_monad; destruct (peg_has_client s); frame_done.
  - unfold stop; unfold_monad; destruct (peg_has_client s); frame_done.
  - rewrite sendEventsToWidgets_final; frame_done.
  - rewrite sendThemeToWidgets_final; frame_done.
  - rewrite onRoomStateEvents_run; cbn zeta.
    destruct (completes (sendEventsToWidgets ev state s)); [|frame_done].
    destruct (_ && _); [|frame_done].
    destruct (destroyPersistentWidget_final s) as [_ Hf].
    cbn [final]; rewrite Hf; frame_done.
  - frame_done.
  - unfold onAction; destruct (action p =? "set_theme");
      [rewrite sendThemeToWidgets_final|]; frame_done.
  - destruct (destroyPersistentWidget_final s) as [_ ->]; frame_done.
  - rewrite setWidgetPersistence_run; cbn [final].
    destruct (_ && _); [frame_done|]; destruct (_ && _); frame_done.
  - frame_done.
  - frame_done.
  - frame_done.
  - rewrite delWidgetMessaging_final; frame_done.
  - frame_done.
  - frame_done.
Qed.

Lemma calls_write_only_their_fields_witness :
  writes_persistentWidgetId Stop = false /\
  _persistentWidgetId (final (exec Stop w1_persistent)) = JString "w1".
Proof.
  split; [reflexivity|].
  rewrite (proj1 (calls_write_only_their_fields Stop w1_persistent)); reflexivity.
Defined.

(** ** Setting and clearing persistence *)

(** X10. Repeating a [setWidgetPersistence] call leaves the store as the
    first call left it.  Setting persistence for X and then clearing it
    leaves no persistent widget at all: the id that was persistent before
    is not restored. *)
Theorem setWidgetPersistence_composes (X : jsval) (val : bool) (s : ActiveWidgetStore) :
  final (setWidgetPersistence X val (final (setWidgetPersistence X val s)))
    = final (setWidgetPersistence X val s) /\
  _persistentWidgetId
    (final ((setWidgetPersistence X true ;; setWidgetPersistence X false) s)) = JNull.
Proof.
  split.
  - rewrite !setWidgetPersistence_run; cbn [final].
    destruct (strict_eq (_persistentWidgetId s) X) eqn:E, val; simpl;
      rewrite ?E, ?strict_eq_refl; simpl; try reflexivity.
    now destruct (strict_eq JNull X).
  - unfold bind; rewrite !setWidgetPersistence_run; cbn [final completes].
    rewrite ?setWidgetPersistence_run; cbn [final].
    destruct (strict_eq (_persistentWidgetId s) X) eqn:E; simpl;
      rewrite ?E, ?strict_eq_refl; reflexivity.
Qed.

(** ** Subscribing and unsubscribing *)

Lemma start_run s :
  start s =
    if peg_has_client s then
      Result (with_dispatcherRef (JString (dis_token s)) s)
        [ClientOn "RoomState.events" OnRoomStateEventsH;
         ClientOn "Room.timeline" OnRoomTimelineEventsH;
         DisRegister OnActionH]
        (Ret tt)
    else Result s [] (Throw (TypeError "Cannot read property 'on' of null")).
Proof.
  unfold start, bind, gets, perform, modify, throw, ret; cbn [final trace completes].
  now destruct (peg_has_client s).
Qed.

(** X11. With a client available, [start] subscribes the two handlers to
    the client, registers [onAction] with the dispatcher, keeps the token
    in [dispatcherRef] and returns; it is not guarded against a second
    call, which subscribes and registers everything once more.  With no
    client, [start] throws a [TypeError] at the first subscription: nothing
    is registered with the dispatcher and the store is as it was. *)
Theorem start_subscribes (s : ActiveWidgetStore) :
  (peg_has_client s = true ->
   start s =
     Result (with_dispatcherRef (JString (dis_token s)) s)
       [ClientOn "RoomState.events" OnRoomStateEventsH;
        ClientOn "Room.timeline" OnRoomTimelineEventsH;
        DisRegister OnActionH]
       (Ret tt) /\
   trace ((start ;; start) s) =
     [ClientOn "RoomState.events" OnRoomStateEventsH;
      ClientOn "Room.timeline" OnRoomTimelineEventsH;
      DisRegister OnActionH;
      ClientOn "RoomState.events" OnRoomStateEventsH;
      ClientOn "Room.timeline" OnRoomTimelineEventsH;
      DisRegister OnActionH]) /\
  (peg_has_client s = false ->
   final (start s) = s /\ trace (start s) = [] /\
   exists what, completes (start s) = Throw (TypeError what)).
Proof.
  split; intros H.
  - split; [now rewrite start_run, H|].
    unfold bind; rewrite start_run, H; cbn [final trace completes].
    rewrite start_run; cbn [peg_has_client with_dispatcherRef]; now rewrite H.
  - rewrite start_run, H; cbn [final trace completes]; eauto.
Qed.

Lemma start_subscribes_witness :
  peg_has_client fresh = true /\
  dispatcherRef (final (start fresh)) = JString "ID_1".
Proof.
  split; [reflexivity|].
  destruct (proj1 (start_subscribes fresh) eq_refl) as [H _].
  now rewrite H.
Defined.

Lemma stop_run s :
  stop s =
    Result
      (with_roomIdByWidgetId (JsObject.empty _)
         (with_widgetMessagingByWidgetId (JsObject.empty _)
            (with_capsByWidgetId (JsObject.empty _) s)))
      (if peg_has_client s
       then [ClientRemoveListener "RoomState.events" OnRoomStateEventsH;
             ClientRemoveListener "Room.timeline" OnRoomTimelineEventsH]
       else [])
      (Ret tt).
Proof.
  unfold stop, bind, gets, perform, modify, ret; cbn [final trace completes].
  now destruct (peg_has_client s).
Qed.

(** X12. The only effects of [stop] are the two [removeListener] calls,
    made when a client is available: every channel binding is dropped
    without [stop] being called on any channel, and no ['update'] is
    emitted.  A second [stop] leaves the store as the first left it. *)
Theorem stop_effects (s : ActiveWidgetStore) :
  trace (stop s) =
    (if peg_has_client s
     then [ClientRemoveListener "RoomState.events" OnRoomStateEventsH;
           ClientRemoveListener "Room.timeline" OnRoomTimelineEventsH]
     else []) /\
  filter is_channel_call (trace (stop s)) = [] /\
  filter is_update (trace (stop s)) = [] /\
  final (stop (final (stop s))) = final (stop s).
Proof.
  rewrite !stop_run; cbn [final trace].
  destruct (peg_has_client s); repeat split.
Qed.

(** ** Fan-outs on a store that tracks no capabilities *)

Lemma sendEventsToWidgets_no_caps ev state s :
  _capsByWidgetId s = JsObject.empty _ ->
  sendEventsToWidgets ev state s = Result s [] (Ret tt).
Proof.
  intros H; unfold sendEventsToWidgets; rewrite bind_gets, H; reflexivity.
Qed.

Lemma sendThemeToWidgets_no_caps theme s :
  _capsByWidgetId s = JsObject.empty _ ->
  sendThemeToWidgets theme s = Result s [] (Ret tt).
Proof.
  intros H; unfold sendThemeToWidgets; rewrite bind_gets, H; reflexivity.
Qed.

(** X13. After [stop], whatever the store held before, forwarding an event
    and broadcasting a theme return without calling any channel and
    without throwing, and a room-state event no longer tears anything down
    unless its state key is the persistent id, which [stop] has kept. *)
Theorem fan_outs_after_stop (ev : MatrixEvent.t) (state theme : jsval)
  (s : ActiveWidgetStore) :
  let s' := final (stop s) in
  sendEventsToWidgets ev state s' = Result s' [] (Ret tt) /\
  sendThemeToWidgets theme s' = Result s' [] (Ret tt) /\
  (MatrixEvent.getStateKey ev <> _persistentWidgetId s ->
   onRoomStateEvents ev state s' = Result s' [] (Ret tt)).
Proof.
  assert (Hc : _capsByWidgetId (final (stop s)) = JsObject.empty _)
    by now rewrite stop_run.
  assert (Hp : _persistentWidgetId (final (stop s)) = _persistentWidgetId s)
    by now rewrite stop_run.
  cbn zeta; split; [now apply sendEventsToWidgets_no_caps|].
  split; [now apply sendThemeToWidgets_no_caps|].
  intros Hne; rewrite onRoomStateEvents_run; cbn zeta.
  rewrite (sendEventsToWidgets_no_caps ev state _ Hc); cbn [final trace completes].
  rewrite Hp; apply strict_eq_false in Hne; rewrite Hne, andb_false_r; reflexivity.
Qed.

Lemma fan_outs_after_stop_witness :
  MatrixEvent.getStateKey (widget_event "room1" (JString "w2"))
    <> _persistentWidgetId w1_persistent_no_channel /\
  onRoomStateEvents (widget_event "room1" (JString "w2")) JNull
    (final (stop w1_persistent_no_channel))
  = Result (final (stop w1_persistent_no_channel)) [] (Ret tt).
Proof.
  split; [discriminate|].
  apply (fan_outs_after_stop (widget_event "room1" (JString "w2")) JNull JNull
           w1_persistent_no_channel).
  discriminate.
Defined.

(** ** More on tearing down the persistent widget *)

Lemma destroyPersistentWidget_trace s :
  trace (destroyPersistentWidget s) =
    (Emit "update"
     :: trace (delWidgetMessaging (_persistentWidgetId s)
                 (with_persistentWidgetId JNull s))
     ++ [Emit "update"; Emit "update"])%list.
Proof.
  rewrite destroyPersistentWidget_run.
  erewrite bind_returns by now rewrite setWidgetPersistence_run.
  rewrite setWidgetPersistence_run; cbn [final trace completes].
  rewrite strict_eq_refl; cbn [andb negb app].
  f_equal.
  erewrite bind_returns by apply delWidgetMessaging_returns.
  cbn [final trace completes]; f_equal.
Qed.

(** X14. [destroyPersistentWidget] touches the entries under the persistent
    id's key only: for every id with another key the capability set, the
    channel and the room id are as before. *)
Theorem destroyPersistentWidget_spares_others (other : jsval) (s : ActiveWidgetStore) :
  prop_key other <> prop_key (_persistentWidgetId s) ->
  let s' := final (destroyPersistentWidget s) in
  JsObject.get (prop_key other) (_capsByWidgetId s')
    = JsObject.get (prop_key other) (_capsByWidgetId s) /\
  completes (getWidgetMessaging other s') = completes (getWidgetMessaging other s) /\
  completes (getRoomId other s') = completes (getRoomId other s).
Proof.
  intros Hne; cbn zeta.
  destruct (destroyPersistentWidget_final s) as [_ ->].
  unfold getWidgetMessaging, getRoomId, gets; simpl.
  now rewrite !(JsObjectFacts.get_delete_other _ Hne).
Qed.

Lemma destroyPersistentWidget_spares_others_witness :
  prop_key (JString "w2") <> prop_key (_persistentWidgetId w1_persistent) /\
  completes (getRoomId (JString "w2")
               (final (destroyPersistentWidget
                         (final (setRoomId (JString "w2") "room2" w1_persistent)))))
  = Ret (JString "room2").
Proof.
  split; [discriminate|].
  pose proof (@destroyPersistentWidget_spares_others (JString "w2")
                (final (setRoomId (JString "w2") "room2" w1_persistent))) as H.
  destruct H as (_ & _ & H); [discriminate|].
  now rewrite H.
Defined.

(** X15. With no persistent widget the pointer is [null], and the deletions
    of [destroyPersistentWidget] go to the key ["null"]: when no widget has
    that id, the store is left as it was and ['update'] is still emitted
    three times. *)
Theorem destroyPersistentWidget_without_holder (s : ActiveWidgetStore) :
  _persistentWidgetId s = JNull ->
  unknown JNull s ->
  destroyPersistentWidget s
  = Result s [Emit "update"; Emit "update"; Emit "update"] (Ret tt).
Proof.
  intros Hp (Hc & Hm & Hr).
  pose proof (destroyPersistentWidget_trace s) as Ht.
  destruct (destroyPersistentWidget_final s) as [Hcomp Hfin].
  rewrite Hp in *.
  rewrite delWidgetMessaging_unbound in Ht by exact Hm.
  rewrite (delete_absent _ _ Hc), (delete_absent _ _ Hm), (delete_absent _ _ Hr) in Hfin.
  rewrite <- Hp, store_eta in Hfin.
  destruct (destroyPersistentWidget s); simpl in *; now subst.
Qed.

Lemma destroyPersistentWidget_without_holder_witness :
  _persistentWidgetId two_themed_widgets = JNull /\
  unknown JNull two_themed_widgets /\
  final (destroyPersistentWidget two_themed_widgets) = two_themed_widgets.
Proof.
  split; [reflexivity|]. split; [repeat split|].
  rewrite (@destroyPersistentWidget_without_holder two_themed_widgets);
    [reflexivity | reflexivity | repeat split].
Defined.

(** With no persistent widget, a widget whose id is the string ["null"]
    loses its channel, capabilities and room id. *)
Example destroyPersistentWidget_widget_named_null :
  _persistentWidgetId widget_named_null = JNull /\
  destroyPersistentWidget widget_named_null =
    Result fresh
      [Emit "update"; WmStop "null" (channel "c0"); Emit "update";
       Emit "update"; Emit "update"]
      (Ret tt).
Proof. split; reflexivity. Qed.


(** ** Broadcasting a theme *)








(** The broadcast on the sample store: both widgets, in registration order,
    the room-bound one included. *)
Example sendThemeToWidgets_sample :
  trace (sendThemeToWidgets (JString "dark") two_themed_widgets)
  = [WmSendThemeUpdate "w1" (channel "c1") (JString "dark");
     WmSendThemeUpdate "w2" (channel "c2") (JString "dark")].
Proof. reflexivity. Qed.

(** ** The dispatcher callback *)

(** [onAction] acts on the action ["set_theme"] only, by broadcasting
    the payload's value; for every other action it returns with the store
    as it was and no effect. *)
Theorem onAction_only_set_theme (p : payload) (s : ActiveWidgetStore) :
  (action p = "set_theme" -> onAction p s = sendThemeToWidgets (value p) s) /\
  (action p <> "set_theme" -> onAction p s = Result s [] (Ret tt)).
Proof.
  unfold onAction; split; intros H.
  - now rewrite H.
  - apply String.eqb_neq in H; now rewrite H.
Qed.

Lemma onAction_only_set_theme_witness :
  action {| action := "view_room"; value := JString "dark" |} <> "set_theme" /\
  onAction {| action := "view_room"; value := JString "dark" |} two_themed_widgets
  = Result two_themed_widgets [] (Ret tt).
Proof.
  split; [discriminate|].
  apply (onAction_only_set_theme {| action := "view_room"; value := JString "dark" |}
           two_themed_widgets).
  discriminate.
Defined.

(** ** Where forwarding stops *)

Lemma send_failure_None_channel s ev k :
  send_failure s ev k = None ->
  selectedb s ev k = true ->
  exists wm, JsObject.get k (_widgetMessagingByWidgetId s) = Some wm /\
             wm_sendEvent wm = Returns.
Proof.
  unfold send_failure; intros H Hsel; rewrite Hsel in H.
  destruct (JsObject.get k (_widgetMessagingByWidgetId s)) as [wm|]; [|discriminate].
  exists wm; split; [reflexivity|].
  now destruct (wm_sendEvent wm).
Qed.

Lemma sendEventsToWidgets_body_fails ev state k s e :
  send_failure s ev k = Some e ->
  sendEventsToWidgets_body ev state k s = Result s (forwarded s ev state k) (Throw e).
Proof.
  unfold sendEventsToWidgets_body, send_failure, forwarded, selectedb, JsObject.has_own.
  unfold_monad.
  destruct (JsObject.get k (_capsByWidgetId s)) as [caps|] eqn:Ec;
    simpl; rewrite ?Ec; simpl; [|discriminate].
  destruct (_ && _); simpl; [|discriminate].
  destruct (JsObject.get k (_widgetMessagingByWidgetId s)) as [wm|]; simpl.
  - destruct (wm_sendEvent wm); simpl; [discriminate|].
    intros [= <-]; reflexivity.
  - intros [= <-]; reflexivity.
Qed.




(** ** What forwarding never does *)

Lemma sendEventsToWidgets_body_trace ev state k s :
  trace (sendEventsToWidgets_body ev state k s) = forwarded s ev state k.
Proof.
  destruct (send_failure s ev k) as [e|] eqn:F.
  - now rewrite (@sendEventsToWidgets_body_fails _ state _ _ _ F).
  - rewrite sendEventsToWidgets_body_run; [reflexivity|].
    now apply send_failure_None_channel.
Qed.

Lemma for_in_sendEvents_trace (P : effect -> Prop) ev state ks s :
  (forall k, Forall P (forwarded s ev state k)) ->
  Forall P (trace (for_in ks (sendEventsToWidgets_body ev state) s)).
Proof.
  intros HP; induction ks as [|k r IH]; simpl; [constructor|].
  unfold bind.
  pose proof (sendEventsToWidgets_body_trace ev state k s) as Ht.
  pose proof (sendEventsToWidgets_body_final ev state k s) as Hf.
  destruct (completes (sendEventsToWidgets_body ev state k s));
    cbn [final trace completes]; rewrite Ht; [|apply HP].
  apply Forall_app; split; [apply HP | now rewrite Hf].
Qed.

(** X19. Whether it returns or throws, [sendEventsToWidgets] leaves the
    store as it was and its only effects are [sendEvent] calls, each made
    on the channel bound under the key of a widget the guard selects and
    carrying the event, the state and the event's room id: it never emits
    ['update'], never calls a widget it does not select and never calls a
    channel under another widget's key. *)
Theorem sendEventsToWidgets_calls_only_selected (ev : MatrixEvent.t) (state : jsval)
  (s : ActiveWidgetStore) :
  final (sendEventsToWidgets ev state s) = s /\
  Forall (fun e =>
            exists w wm,
              e = WmSendEvent w wm ev state (MatrixEvent.getRoomId ev) /\
              selected s ev w /\
              JsObject.get w (_widgetMessagingByWidgetId s) = Some wm)
         (trace (sendEventsToWidgets ev state s)).
Proof.
  split; [apply sendEventsToWidgets_final|].
  unfold sendEventsToWidgets; rewrite bind_gets.
  apply for_in_sendEvents_trace; intros k.
  unfold forwarded.
  destruct (selectedb s ev k) eqn:Hsel; [|constructor].
  destruct (JsObject.get k (_widgetMessagingByWidgetId s)) as [wm|] eqn:Hwm;
    [|constructor].
  constructor; [|constructor].
  exists k, wm; repeat split; [now apply selectedb_selected | assumption].
Qed.

(** ** The order of forwarding *)





